(** * DenselineLaneDetector: a shallow embedding of Init and Detect

    Source: modules/perception/camera/lib/lane/detector/denseline/
            denseline_lane_detector.cc

    Modelling conventions.
    - The detector object is a record [Detector] with one field per member
      the two methods read or write.  The member declarations live in the
      header, which is not part of the sources at hand: integer members are
      modelled as [Z] (values are taken in range), [image_scale_] as the
      exact rational value of the configured scale, and the products
      [crop * image_scale_] as exact (this is exact in float for the dyadic
      scales used in the examples below).
    - The conversion of the product to the integer member
      ([resize_height_ = crop_height_ * image_scale_]) truncates toward
      zero; it is written out as [qtrunc].
    - [CHECK], [CHECK_LE], [CHECK_EQ] log at FATAL level and terminate the
      process: the run ends with [ExitCheckFailed].  Dereferencing a null
      pointer is undefined behaviour: the run ends with [ExitNullDeref].
      [return false] in the middle of a method ends the run with
      [ExitReturn false].
    - External collaborators (proto loading, path resolution, the inference
      factory, the engine, the data provider) are plain functions passed in;
      calls to the engine, the GPU and the data provider are recorded in a
      trace of [Call]s, logging in a list of [(Level * string)]. *)

From Stdlib Require Import ZArith QArith String List Bool Lia.
Import ListNotations.
Open Scope Z_scope.

(* ------------------------------------------------------------------ *)
(** ** Data model *)

(** A blob (tensor) as the engine hands it out: its shape and a tag that
    identifies the buffer. *)
Record Blob := mkBlob {
  blob_tag : string;
  blob_channels : Z;
  blob_height : Z;
  blob_width : Z
}.

(** The inference engine ([inference::Inference]): named blob lookup, and
    [Init(input_reshape)], which either fails or yields the blob lookup of
    the reshaped network. *)
Record Net := mkNet {
  get_blob : string -> option Blob;
  net_Init : list (string * list Z) -> option (string -> option Blob)
}.

Inductive Color := NONE | RGB | BGR | GRAY.

Record Rect := mkRect { roi_x : Z; roi_y : Z; roi_height : Z; roi_width : Z }.

(** [DataProvider::ImageOptions]. *)
Record ImageOptions := mkImageOptions {
  target_color : Color;
  do_crop : bool;
  crop_roi : Rect
}.

Definition default_image_options : ImageOptions :=
  mkImageOptions NONE false (mkRect 0 0 0 0).

(** [base::BaseCameraModel]: only its size is read. *)
Record CameraModel := mkCameraModel { get_height : Z; get_width : Z }.

(** The parsed [DenselineParam] proto: [model_param] and [net_param]. *)
Record ModelParam := mkModelParam {
  model_name : string;
  proto_file : string;
  weight_file : string;
  model_type : string;
  resize_scale : Q;
  input_offset_y : Z;
  input_offset_x : Z;
  crop_height : Z;
  crop_width : Z;
  is_bgr : bool;
  mean_b : Q;
  mean_g : Q;
  mean_r : Q
}.

Record NetParam := mkNetParam {
  in_blob : string;
  out_blob : string;
  internal_blob_int8 : list string
}.

Record DenselineParam := mkDenselineParam {
  model_param : ModelParam;
  net_param : NetParam
}.

(** [LaneDetectorInitOptions]. *)
Record LaneDetectorInitOptions := mkInitOptions {
  root_dir : string;
  conf_file : string;
  base_camera_model : option CameraModel;
  gpu_id : Z
}.

(** [LaneDetectorOptions]: not read by [Detect]. *)
Record LaneDetectorOptions : Type := mkLaneDetectorOptions {}.

(** The frame's data provider: native size and [GetImage]. *)
Record DataProvider := mkDataProvider {
  src_width : Z;
  src_height : Z;
  GetImage : ImageOptions -> bool
}.

(** [CameraFrame]: the fields [Detect] reads and writes. *)
Record CameraFrame := mkCameraFrame {
  data_provider : DataProvider;
  lane_detected_blob : option Blob
}.

Definition set_lane_detected_blob (f : CameraFrame) (b : option Blob)
  : CameraFrame :=
  mkCameraFrame (data_provider f) b.

(** External functions used by [Init]: [GetProtoFromFile],
    [FileUtil::GetAbsolutePath] and [inference::CreateInferenceByName]
    (model type, proto file, weight file, outputs, inputs, root). *)
Record Env := mkEnv {
  GetProtoFromFile : string -> option DenselineParam;
  GetAbsolutePath : string -> string -> string;
  CreateInferenceByName :
    string -> string -> string -> list string -> list string -> string ->
    option Net
}.

(** The members of [DenselineLaneDetector] that [Init] and [Detect] use. *)
Record Detector := mkDetector {
  rt_net_ : option Net;
  base_camera_model_ : option CameraModel;
  denseline_param_ : option DenselineParam;
  input_height_ : Z;
  input_width_ : Z;
  image_scale_ : Q;
  input_offset_y_ : Z;
  input_offset_x_ : Z;
  crop_height_ : Z;
  crop_width_ : Z;
  resize_height_ : Z;
  resize_width_ : Z;
  image_mean_ : Q * Q * Q;
  data_provider_image_option_ : ImageOptions;
  net_inputs_ : list string;
  net_outputs_ : list string
}.

(** A freshly constructed detector. *)
Definition fresh_detector : Detector :=
  mkDetector None None None 0 0 0 0 0 0 0 0 0 (0, 0, 0)%Q
             default_image_options [] [].

(** Setters, one per group of consecutive assignments in [Init]. *)
Definition set_param (p : DenselineParam) (d : Detector) : Detector :=
  mkDetector (rt_net_ d) (base_camera_model_ d) (Some p)
    (input_height_ d) (input_width_ d) (image_scale_ d)
    (input_offset_y_ d) (input_offset_x_ d) (crop_height_ d) (crop_width_ d)
    (resize_height_ d) (resize_width_ d) (image_mean_ d)
    (data_provider_image_option_ d) (net_inputs_ d) (net_outputs_ d).

Definition set_camera (c : option CameraModel) (h w : Z) (d : Detector)
  : Detector :=
  mkDetector (rt_net_ d) c (denseline_param_ d)
    h w (image_scale_ d)
    (input_offset_y_ d) (input_offset_x_ d) (crop_height_ d) (crop_width_ d)
    (resize_height_ d) (resize_width_ d) (image_mean_ d)
    (data_provider_image_option_ d) (net_inputs_ d) (net_outputs_ d).

Definition set_crop (s : Q) (oy ox ch cw : Z) (d : Detector) : Detector :=
  mkDetector (rt_net_ d) (base_camera_model_ d) (denseline_param_ d)
    (input_height_ d) (input_width_ d) s oy ox ch cw
    (resize_height_ d) (resize_width_ d) (image_mean_ d)
    (data_provider_image_option_ d) (net_inputs_ d) (net_outputs_ d).

Definition set_image (m : Q * Q * Q) (o : ImageOptions) (d : Detector)
  : Detector :=
  mkDetector (rt_net_ d) (base_camera_model_ d) (denseline_param_ d)
    (input_height_ d) (input_width_ d) (image_scale_ d)
    (input_offset_y_ d) (input_offset_x_ d) (crop_height_ d) (crop_width_ d)
    (resize_height_ d) (resize_width_ d) m o (net_inputs_ d) (net_outputs_ d).

Definition set_names (ins outs : list string) (d : Detector) : Detector :=
  mkDetector (rt_net_ d) (base_camera_model_ d) (denseline_param_ d)
    (input_height_ d) (input_width_ d) (image_scale_ d)
    (input_offset_y_ d) (input_offset_x_ d) (crop_height_ d) (crop_width_ d)
    (resize_height_ d) (resize_width_ d) (image_mean_ d)
    (data_provider_image_option_ d) ins outs.

Definition set_rt_net (n : option Net) (d : Detector) : Detector :=
  mkDetector n (base_camera_model_ d) (denseline_param_ d)
    (input_height_ d) (input_width_ d) (image_scale_ d)
    (input_offset_y_ d) (input_offset_x_ d) (crop_height_ d) (crop_width_ d)
    (resize_height_ d) (resize_width_ d) (image_mean_ d)
    (data_provider_image_option_ d) (net_inputs_ d) (net_outputs_ d).

Definition set_resize (rh rw : Z) (d : Detector) : Detector :=
  mkDetector (rt_net_ d) (base_camera_model_ d) (denseline_param_ d)
    (input_height_ d) (input_width_ d) (image_scale_ d)
    (input_offset_y_ d) (input_offset_x_ d) (crop_height_ d) (crop_width_ d)
    rh rw (image_mean_ d)
    (data_provider_image_option_ d) (net_inputs_ d) (net_outputs_ d).

(** Log severities of the glog macros. *)
Inductive Level := INFO | WARNING | ERROR | FATAL.

(** Calls to external collaborators, recorded in order. *)
Inductive Call :=
| CallGetDeviceProperties (gpu : Z)
| CallCreateInferenceByName (ty proto weight : string)
    (outputs inputs : list string) (root : string)
| CallSetGpuId (gpu : Z)
| CallNetInit (input_reshape : list (string * list Z))
| CallGetImage (opt : ImageOptions)
| CallResizeGPU (dst : Blob) (crop_width : Z) (mean : Q * Q * Q)
| CallDeviceSynchronize
| CallInfer.

(** The world a method runs in: the detector object, the frame its
    [frame] pointer designates (None: [frame == nullptr]), the log and the
    trace of external calls. *)
Record World := mkWorld {
  w_det : Detector;
  w_frame : option CameraFrame;
  w_log : list (Level * string);
  w_calls : list Call
}.

(* ------------------------------------------------------------------ *)
(** ** A state-and-exit monad *)

(** How a run leaves a method early. *)
Inductive Exit :=
| ExitReturn (b : bool)
| ExitCheckFailed (msg : string)
| ExitNullDeref.

Definition M (A : Type) : Type := World -> (A + Exit) * World.

Definition ret {A} (a : A) : M A := fun w => (inl a, w).

Definition bind {A B} (m : M A) (f : A -> M B) : M B :=
  fun w => match m w with
           | (inl a, w') => f a w'
           | (inr e, w') => (inr e, w')
           end.

Notation "x <- m ;; k" := (bind m (fun x => k))
  (at level 61, m at next level, right associativity).
Notation "m ;;; k" := (bind m (fun _ => k))
  (at level 61, right associativity).

Definition exit {A} (e : Exit) : M A := fun w => (inr e, w).

Definition return_ {A} (b : bool) : M A := exit (ExitReturn b).

Definition get_det : M Detector := fun w => (inl (w_det w), w).

Definition modify_det (f : Detector -> Detector) : M unit :=
  fun w => (inl tt, mkWorld (f (w_det w)) (w_frame w) (w_log w) (w_calls w)).

Definition get_frame : M (option CameraFrame) := fun w => (inl (w_frame w), w).

Definition set_frame (f : option CameraFrame) : M unit :=
  fun w => (inl tt, mkWorld (w_det w) f (w_log w) (w_calls w)).

Definition log (l : Level) (msg : string) : M unit :=
  fun w => (inl tt, mkWorld (w_det w) (w_frame w) (w_log w ++ [(l, msg)])
                            (w_calls w)).

Definition call (c : Call) : M unit :=
  fun w => (inl tt, mkWorld (w_det w) (w_frame w) (w_log w) (w_calls w ++ [c])).

(** [CHECK(b) << msg]. *)
Definition check (b : bool) (msg : string) : M unit :=
  if b then ret tt else log FATAL msg ;;; exit (ExitCheckFailed msg).

(** Dereferencing a pointer that may be null. *)
Definition deref {A} (p : option A) : M A :=
  match p with Some a => ret a | None => exit ExitNullDeref end.

(** [v[0]] on a vector: out of range is undefined behaviour. *)
Definition index0 (l : list string) : M string :=
  match l with x :: _ => ret x | [] => exit ExitNullDeref end.

(** What the caller observes of a run of a method returning bool. *)
Inductive Outcome := Returned (b : bool) | Aborted | Undefined.

Definition outcome (r : bool + Exit) : Outcome :=
  match r with
  | inl b | inr (ExitReturn b) => Returned b
  | inr (ExitCheckFailed _) => Aborted
  | inr ExitNullDeref => Undefined
  end.

(** Float-to-integer conversion of a product: truncation toward zero. *)
Definition qtrunc (q : Q) : Z := Z.quot (Qnum q) (Zpos (Qden q)).

(** The two logging loops at the end of [Init]: every name is looked up in
    the network and the returned blob is dereferenced. *)
Fixpoint log_blobs (net : Net) (names : list string) : M unit :=
  match names with
  | [] => ret tt
  | name :: rest =>
      b <- deref (get_blob net name) ;;
      log INFO name ;;;
      log_blobs net rest
  end.

(* ------------------------------------------------------------------ *)
(** ** [DenselineLaneDetector::Init] *)

Definition Init (env : Env) (options : LaneDetectorInitOptions) : M bool :=
  let proto_path := GetAbsolutePath env (root_dir options) (conf_file options) in
  match GetProtoFromFile env proto_path with
  | None =>
      log INFO "load proto param failed" ;;;
      return_ false
  | Some param =>
      modify_det (set_param param) ;;;
      log INFO "denseline param" ;;;
      let mp := model_param param in
      let model_root := GetAbsolutePath env (root_dir options) (model_name mp) in
      let proto := GetAbsolutePath env model_root (proto_file mp) in
      let weight := GetAbsolutePath env model_root (weight_file mp) in
      hw <- (match base_camera_model options with
             | None =>
                 log ERROR "options.intrinsic is nullptr!" ;;;
                 ret (1080, 1920)
             | Some cam => ret (get_height cam, get_width cam)
             end) ;;
      let '(input_height, input_width) := hw in
      modify_det (set_camera (base_camera_model options)
                             input_height input_width) ;;;
      check (0 <? input_width) "input width should be more than 0" ;;;
      check (0 <? input_height) "input height should be more than 0" ;;;
      log INFO "input_height" ;;;
      log INFO "input_width" ;;;
      modify_det (set_crop (resize_scale mp) (input_offset_y mp)
                           (input_offset_x mp) (crop_height mp)
                           (crop_width mp)) ;;;
      check (crop_height mp <=? input_height)
            "crop height larger than input height" ;;;
      check (crop_width mp <=? input_width)
            "crop width larger than input width" ;;;
      let '(color, mean) :=
        if is_bgr mp then (BGR, (mean_b mp, mean_g mp, mean_r mp))
        else (RGB, (mean_r mp, mean_g mp, mean_b mp)) in
      modify_det (set_image mean
        (mkImageOptions color true
           (mkRect (input_offset_x mp) (input_offset_y mp)
                   (crop_height mp) (crop_width mp)))) ;;;
      call (CallGetDeviceProperties (gpu_id options)) ;;;
      log INFO "GPU" ;;;
      let np := net_param param in
      d <- get_det ;;
      modify_det (set_names (net_inputs_ d ++ [in_blob np])
                            (net_outputs_ d ++ out_blob np
                                             :: internal_blob_int8 np)) ;;;
      d <- get_det ;;
      log INFO "net input blobs" ;;;
      log INFO "net output blobs" ;;;
      log INFO "model_type" ;;;
      call (CallCreateInferenceByName (model_type mp) proto weight
              (net_outputs_ d) (net_inputs_ d) model_root) ;;;
      let created := CreateInferenceByName env (model_type mp) proto weight
                       (net_outputs_ d) (net_inputs_ d) model_root in
      modify_det (set_rt_net created) ;;;
      check (match created with Some _ => true | None => false end)
            "rt_net_ != nullptr" ;;;
      net <- deref created ;;
      call (CallSetGpuId (gpu_id options)) ;;;
      let resize_height := qtrunc (inject_Z (crop_height mp) * resize_scale mp) in
      let resize_width := qtrunc (inject_Z (crop_width mp) * resize_scale mp) in
      modify_det (set_resize resize_height resize_width) ;;;
      check (0 <? resize_width) "resize width should be more than 0" ;;;
      check (0 <? resize_height) "resize height should be more than 0" ;;;
      let shape := [1; 3; resize_height; resize_width] in
      in0 <- index0 (net_inputs_ d) ;;
      let input_reshape := [(in0, shape)] in
      log INFO "input_reshape" ;;;
      call (CallNetInit input_reshape) ;;;
      match net_Init net input_reshape with
      | None =>
          log INFO "net init fail." ;;;
          return_ false
      | Some blobs =>
          let net' := mkNet blobs (net_Init net) in
          modify_det (set_rt_net (Some net')) ;;;
          log_blobs net' (net_inputs_ d) ;;;
          log_blobs net' (net_outputs_ d) ;;;
          ret true
      end
  end.

(* ------------------------------------------------------------------ *)
(** ** [DenselineLaneDetector::Detect] *)

Definition Detect (options : LaneDetectorOptions) : M bool :=
  frame <- get_frame ;;
  match frame with
  | None =>
      log INFO "camera frame is empty." ;;;
      return_ false
  | Some f =>
      d <- get_det ;;
      let dp := data_provider f in
      check (input_width_ d =? src_width dp) "Input size is not correct" ;;;
      check (input_height_ d =? src_height dp) "Input size is not correct" ;;;
      call (CallGetImage (data_provider_image_option_ d)) ;;;
      check (GetImage dp (data_provider_image_option_ d)) "GetImage" ;;;
      in0 <- index0 (net_inputs_ d) ;;
      net <- deref (rt_net_ d) ;;
      input_blob <- deref (get_blob net in0) ;;
      log INFO "input_blob" ;;;
      check (blob_height input_blob =? resize_height_ d)
            "height is not equal" ;;;
      check (blob_width input_blob =? resize_width_ d)
            "width is not equal" ;;;
      call (CallResizeGPU input_blob (crop_width_ d) (image_mean_ d)) ;;;
      log INFO "resize gpu finish." ;;;
      call CallDeviceSynchronize ;;;
      call CallInfer ;;;
      log INFO "infer finish." ;;;
      out0 <- index0 (net_outputs_ d) ;;
      set_frame (Some (set_lane_detected_blob f (get_blob net out0))) ;;;
      ret true
  end.

(** Running a method from a world. *)
Definition run {A} (m : M A) (w : World) : (A + Exit) * World := m w.

(* ------------------------------------------------------------------ *)
(** ** Concrete configurations used by the examples below *)

Definition world_of (d : Detector) (f : option CameraFrame) : World :=
  mkWorld d f [] [].

(** Blob lookup of an engine that honours the requested input reshape and
    answers every other name with a 1x1x1 blob. *)
Definition reshaped_blobs (r : list (string * list Z)) (name : string)
  : option Blob :=
  match find (fun p => String.eqb (fst p) name) r with
  | Some (_, [_; c; h; w]) => Some (mkBlob name c h w)
  | _ => Some (mkBlob name 1 1 1)
  end.

(** An engine whose [Init] accepts any reshape. *)
Definition permissive_net : Net :=
  mkNet (fun _ => None) (fun r => Some (reshaped_blobs r)).

(** An engine factory that only builds networks whose name lists have no
    repeated entry. *)
Fixpoint has_dup (l : list string) : bool :=
  match l with
  | [] => false
  | x :: rest => existsb (String.eqb x) rest || has_dup rest
  end.

Definition env_with (p : DenselineParam) (dup_ok : bool) : Env :=
  mkEnv (fun _ => Some p)
        (fun a b => (a ++ "/" ++ b)%string)
        (fun _ _ _ outs ins _ =>
           if dup_ok || negb (has_dup outs || has_dup ins)
           then Some permissive_net else None).

Definition model_example (ox oy cw ch : Z) (s : Q) : ModelParam :=
  mkModelParam "denseline" "deploy.prototxt" "deploy.caffemodel" "RTNet"
    s oy ox ch cw false 95 99 96.

Definition net_example : NetParam := mkNetParam "data" "conv_out" ["softmax"%string].

Definition param_example (ox oy cw ch : Z) (s : Q) : DenselineParam :=
  mkDenselineParam (model_example ox oy cw ch s) net_example.

Definition camera_1920x1080 : CameraModel := mkCameraModel 1080 1920.

Definition init_options (c : option CameraModel) : LaneDetectorInitOptions :=
  mkInitOptions "/apollo/modules/perception/production/data/perception/camera/models/lane_detector"
                "config.pt" c 0.

(** The end-to-end example of the design: crop (0, 300, 1920, 480), scale
    one half. *)
Definition param_e2e : DenselineParam := param_example 0 300 1920 480 (1#2).

(** The factory of the end-to-end example, accepting any name list. *)
Definition e2e_env : Env := env_with param_e2e true.

(** [Init] on a freshly constructed detector, and the detector it
    leaves in the end-to-end example. *)
Abbreviation init_run env c :=
  (run (Init env (init_options c)) (world_of fresh_detector None)).

Abbreviation e2e_detector :=
  (w_det (snd (init_run e2e_env (Some camera_1920x1080)))).

(** A frame whose provider reports the given size and whose [GetImage]
    succeeds. *)
Definition frame_of (width height : Z) : CameraFrame :=
  mkCameraFrame (mkDataProvider width height (fun _ => true)) None.

Definition no_options : LaneDetectorOptions := mkLaneDetectorOptions.

(** The engine bound by [Init] in the end-to-end example. *)
Definition e2e_net : Net :=
  match rt_net_ e2e_detector with Some n => n | None => permissive_net end.

(** An engine whose input blob no longer has the shape validated by
    [Init]. *)
Definition drifted_net : Net :=
  mkNet (fun name => Some (mkBlob name 3 256 960)) (net_Init permissive_net).

Definition drifted_detector : Detector :=
  set_rt_net (Some drifted_net) e2e_detector.

(** An engine whose input blob kept its height and width but has one
    channel instead of three. *)
Definition channel_drifted_net : Net :=
  mkNet (fun name => Some (mkBlob name 1 240 960)) (net_Init permissive_net).

Definition channel_drifted_detector : Detector :=
  set_rt_net (Some channel_drifted_net) e2e_detector.

Definition p_wide : DenselineParam := param_example 0 0 2000 480 (1#2).

(** [Init] called a second time on the detector left by the first. *)
Definition init_twice (env : Env) : (bool + Exit) * World :=
  run (Init env (init_options (Some camera_1920x1080)))
      (snd (init_run env (Some camera_1920x1080))).

(** What the logging loops do, independent of the world: whether every
    name has a blob, and the entries logged up to the first missing one. *)
Fixpoint log_blobs_trace (net : Net) (names : list string)
  : bool * list (Level * string) :=
  match names with
  | [] => (true, [])
  | name :: rest =>
      match get_blob net name with
      | None => (false, [])
      | Some _ =>
          let '(ok, lg) := log_blobs_trace net rest in (ok, (INFO, name) :: lg)
      end
  end.

(** Native size recorded by [Init]: the camera's, or the default. *)
Definition native_height (o : LaneDetectorInitOptions) : Z :=
  match base_camera_model o with None => 1080 | Some c => get_height c end.

Definition native_width (o : LaneDetectorInitOptions) : Z :=
  match base_camera_model o with None => 1920 | Some c => get_width c end.

(** The model directory and the arguments [Init] hands to the inference
    factory (lines 43-51 and 115-121), for a detector [d] as it was
    before the name lists are appended to. *)
Definition model_root_of (env : Env) (o : LaneDetectorInitOptions)
  (p : DenselineParam) : string :=
  GetAbsolutePath env (root_dir o) (model_name (model_param p)).

Definition factory_call (env : Env) (o : LaneDetectorInitOptions)
  (p : DenselineParam) (d : Detector) : Call :=
  let mp := model_param p in
  let np := net_param p in
  let mr := model_root_of env o p in
  CallCreateInferenceByName (model_type mp)
    (GetAbsolutePath env mr (proto_file mp))
    (GetAbsolutePath env mr (weight_file mp))
    (net_outputs_ d ++ out_blob np :: internal_blob_int8 np)
    (net_inputs_ d ++ [in_blob np]) mr.

Definition create_net (env : Env) (o : LaneDetectorInitOptions)
  (p : DenselineParam) (d : Detector) : option Net :=
  let mp := model_param p in
  let np := net_param p in
  let mr := model_root_of env o p in
  CreateInferenceByName env (model_type mp)
    (GetAbsolutePath env mr (proto_file mp))
    (GetAbsolutePath env mr (weight_file mp))
    (net_outputs_ d ++ out_blob np :: internal_blob_int8 np)
    (net_inputs_ d ++ [in_blob np]) mr.






Definition env_factory (p : DenselineParam) (n : option Net) : Env :=
  mkEnv (fun _ => Some p) (fun a b => (a ++ "/" ++ b)%string)
        (fun _ _ _ _ _ _ => n).




(** A 1920 x 1080 frame whose [GetImage] fails. *)
Definition frame_no_image : CameraFrame :=
  mkCameraFrame (mkDataProvider 1920 1080 (fun _ => false)) None.

(** Shorthands for the examples: the options with the 1920 x 1080 camera,
    the world of a freshly constructed detector, and the end-to-end
    detector with a 1920 x 1080 frame. *)
Abbreviation cam_options := (init_options (Some camera_1920x1080)).
Abbreviation world0 := (world_of fresh_detector None).
Abbreviation w_e2e_frame :=
  (mkWorld e2e_detector (Some (frame_of 1920 1080)) [] []).

(* ------------------------------------------------------------------ *)
(** ** Proof infrastructure *)

(** The logging loops only log, or stop on a missing blob. *)
Lemma log_blobs_eq (net : Net) (names : list string) (w : World) :
  log_blobs net names w =
    (if fst (log_blobs_trace net names) then inl tt else inr ExitNullDeref,
     mkWorld (w_det w) (w_frame w)
             (w_log w ++ snd (log_blobs_trace net names)) (w_calls w)).
Proof.
  revert w. induction names as [|name rest IH]; intros w.
  - destruct w. cbn. rewrite app_nil_r. reflexivity.
  - cbn. destruct (get_blob net name) as [b|]; cbn.
    + rewrite IH. cbn. destruct (log_blobs_trace net rest) as [ok lg].
      cbn. rewrite <- app_assoc. reflexivity.
    + destruct w. cbn. rewrite app_nil_r. reflexivity.
Qed.

(** The reduction used by the symbolic execution: unfold the monad and
    the record accessors, nothing else. *)
Ltac run_simpl H :=
  cbv beta iota zeta delta [run bind ret log call modify_det get_det exit
    return_ check deref index0 set_frame get_frame Init Detect
    w_det w_frame w_log w_calls
    set_param set_camera set_crop set_image set_names set_rt_net set_resize
    rt_net_ base_camera_model_ denseline_param_ input_height_ input_width_
    image_scale_ input_offset_y_ input_offset_x_ crop_height_ crop_width_
    resize_height_ resize_width_ image_mean_ data_provider_image_option_
    net_inputs_ net_outputs_
    set_lane_detected_blob
    root_dir conf_file base_camera_model gpu_id] in H;
  cbn [app] in H.

(** Symbolic execution of a run equation [H : m w = (r, w')]: split on
    every guard; each branch ends with [r] and [w'] computed. *)
Ltac run_step H :=
  run_simpl H;
  match type of H with
  | context [bind (log_blobs ?n ?l) ?k ?w0] =>
      change (bind (log_blobs n l) k w0) with
        (match log_blobs n l w0 with
         | (inl a, w') => k a w'
         | (inr e, w') => (inr e, w')
         end) in H
  | context [log_blobs ?n ?l ?w0] => rewrite log_blobs_eq in H
  | context [match ?l ++ ?a :: ?rest with [] => _ | _ :: _ => _ end] =>
      is_var l; let E := fresh "E" in destruct l eqn:E
  | context [match ?x with [] => _ | _ :: _ => _ end] =>
      match goal with
      | E : x = _ |- _ => rewrite E in H
      | _ => let E := fresh "E" in destruct x eqn:E
      end
  | context [match ?x with Some _ => _ | None => _ end] =>
      match goal with
      | E : x = _ |- _ => rewrite E in H
      | _ => let E := fresh "E" in destruct x eqn:E
      end
  | context [if ?b then _ else _] =>
      match goal with
      | E : b = _ |- _ => rewrite E in H
      | _ => let E := fresh "E" in destruct b eqn:E
      end
  end.

(** Turn the boolean comparisons collected by [run_cases] into
    propositions. *)
Ltac zify_eqs :=
  repeat match goal with
  | E : (_ =? _) = true |- _ => apply Z.eqb_eq in E
  | E : (_ =? _) = false |- _ => apply Z.eqb_neq in E
  | E : (_ <? _) = true |- _ => apply Z.ltb_lt in E
  | E : (_ <? _) = false |- _ => apply Z.ltb_ge in E
  | E : (_ <=? _) = true |- _ => apply Z.leb_le in E
  | E : (_ <=? _) = false |- _ => apply Z.leb_gt in E
  end.

(** Closes a goal about concrete values by evaluation. *)
Ltac concrete := vm_compute; first [reflexivity | discriminate | intro; discriminate].

(** Name every member of the world, so that accessors compute. *)
Ltac destruct_world w :=
  destruct w as [[? ? ? ? ? ? ? ? ? ? ? ? ? ? ? ?] ? ? ?].

Ltac run_cases H :=
  repeat run_step H; run_simpl H;
  injection H; clear H; intros; subst; try discriminate.



(** A frame whose size differs from the recorded native size stops
    [Detect] at the size CHECKs, before any external call. *)
Lemma Detect_size_mismatch (opts : LaneDetectorOptions) (d : Detector)
  (f : CameraFrame) lg cs :
  (src_width (data_provider f), src_height (data_provider f))
    <> (input_width_ d, input_height_ d) ->
  fst (run (Detect opts) (mkWorld d (Some f) lg cs)) =
    inr (ExitCheckFailed "Input size is not correct") /\
  w_calls (snd (run (Detect opts) (mkWorld d (Some f) lg cs))) = cs.
Proof.
  intros Hne. unfold run, Detect. cbn.
  destruct (input_width_ d =? src_width (data_provider f)) eqn:Ew; cbn.
  - destruct (input_height_ d =? src_height (data_provider f)) eqn:Eh; cbn.
    + apply Z.eqb_eq in Ew, Eh. exfalso. apply Hne. rewrite Ew, Eh. reflexivity.
    + split; reflexivity.
  - split; reflexivity.
Qed.

(* ------------------------------------------------------------------ *)
(** ** Detect *)

(** C7: [Detect] on a null frame returns false; it calls neither the
    image provider, nor the resize kernel, nor inference, publishes
    nothing and leaves the detector unchanged (it only logs). *)
Theorem Detect_null_frame (opts : LaneDetectorOptions) (d : Detector)
  (lg : list (Level * string)) (cs : list Call) :
  outcome (fst (run (Detect opts) (mkWorld d None lg cs))) = Returned false /\
  run (Detect opts) (mkWorld d None lg cs) =
    (inr (ExitReturn false),
     mkWorld d None (lg ++ [(INFO, "camera frame is empty."%string)]) cs).
Proof. split; reflexivity. Qed.

(** C4 (as amended): a frame whose data provider reports a size other
    than the recorded native size makes [Detect] stop at [CHECK_EQ]
    (process termination), before any external call and without
    publishing; a frame of exactly that size passes the check and
    [Detect] calls [GetImage] next; it reaches inference and returns true
    when [GetImage] succeeds and the live input blob has the resize
    shape. *)
Theorem Detect_frame_size (opts : LaneDetectorOptions) (d : Detector)
  (f : CameraFrame) (lg : list (Level * string)) (cs : list Call) :
  ((src_width (data_provider f), src_height (data_provider f))
     <> (input_width_ d, input_height_ d) ->
   outcome (fst (run (Detect opts) (mkWorld d (Some f) lg cs))) = Aborted /\
   w_calls (snd (run (Detect opts) (mkWorld d (Some f) lg cs))) = cs /\
   w_frame (snd (run (Detect opts) (mkWorld d (Some f) lg cs))) = Some f) /\
  ((src_width (data_provider f), src_height (data_provider f))
     = (input_width_ d, input_height_ d) ->
   exists rest,
     w_calls (snd (run (Detect opts) (mkWorld d (Some f) lg cs))) =
       cs ++ CallGetImage (data_provider_image_option_ d) :: rest) /\
  (forall net nm ins b out outs,
   (src_width (data_provider f), src_height (data_provider f))
     = (input_width_ d, input_height_ d) ->
   GetImage (data_provider f) (data_provider_image_option_ d) = true ->
   net_inputs_ d = nm :: ins -> rt_net_ d = Some net ->
   get_blob net nm = Some b ->
   blob_height b = resize_height_ d -> blob_width b = resize_width_ d ->
   net_outputs_ d = out :: outs ->
   outcome (fst (run (Detect opts) (mkWorld d (Some f) lg cs)))
     = Returned true /\
   In CallInfer (w_calls (snd (run (Detect opts) (mkWorld d (Some f) lg cs))))).
Proof.
  split; [|split].
  - intros Hne.
    destruct (run (Detect opts) (mkWorld d (Some f) lg cs)) as [r w1] eqn:Hrun.
    cbn [fst snd]. destruct d. cbn in *.
    run_cases Hrun; zify_eqs; try congruence.
    all: repeat split; reflexivity.
  - intros Heq. injection Heq as Hw Hh.
    destruct (run (Detect opts) (mkWorld d (Some f) lg cs)) as [r w1] eqn:Hrun.
    cbn [snd]. destruct d. cbn in Hw, Hh. subst.
    run_cases Hrun; zify_eqs; try lia.
    all: eexists; rewrite <- ?app_assoc; reflexivity.
  - intros net nm ins b out outs Heq Himg Hin Hnet Hb Hh Hw Hout.
    injection Heq as Ew Eh.
    destruct (run (Detect opts) (mkWorld d (Some f) lg cs)) as [r w1] eqn:Hrun.
    cbn [fst snd]. destruct d. cbn in *. subst.
    run_cases Hrun; zify_eqs; try lia; try congruence.
    split; [reflexivity|]. cbn [w_calls]. rewrite !in_app_iff. cbn. tauto.
Qed.

(** C5 (as amended): when the frame passes the size and [GetImage]
    checks, [Detect] compares the live input blob's height and width with
    [resize_height_] and [resize_width_]; on a mismatch it stops at
    [CHECK_EQ] (process termination) before the resize kernel and
    inference, publishes nothing and leaves the detector object as it
    was: there is no Failed state. *)
Theorem Detect_shape_drift (opts : LaneDetectorOptions) (d : Detector)
  (f : CameraFrame) (lg : list (Level * string)) (cs : list Call)
  (net : Net) (nm : string) (ins : list string) (b : Blob) :
  (src_width (data_provider f), src_height (data_provider f))
    = (input_width_ d, input_height_ d) ->
  GetImage (data_provider f) (data_provider_image_option_ d) = true ->
  net_inputs_ d = nm :: ins -> rt_net_ d = Some net ->
  get_blob net nm = Some b ->
  (blob_height b, blob_width b) <> (resize_height_ d, resize_width_ d) ->
  outcome (fst (run (Detect opts) (mkWorld d (Some f) lg cs))) = Aborted /\
  w_calls (snd (run (Detect opts) (mkWorld d (Some f) lg cs)))
    = cs ++ [CallGetImage (data_provider_image_option_ d)] /\
  w_frame (snd (run (Detect opts) (mkWorld d (Some f) lg cs))) = Some f /\
  w_det (snd (run (Detect opts) (mkWorld d (Some f) lg cs))) = d.
Proof.
  intros Heq Himg Hin Hnet Hb Hne. injection Heq as Ew Eh.
  destruct (run (Detect opts) (mkWorld d (Some f) lg cs)) as [r w1] eqn:Hrun.
  cbn [fst snd]. destruct d. cbn in *. subst.
  run_cases Hrun; zify_eqs; try lia; try congruence.
  all: repeat split; reflexivity.
Qed.

(* ------------------------------------------------------------------ *)
(** ** Init *)

(** C10: with no camera model, a successful [Init] records the native
    size 1920 x 1080, and [Detect] on the resulting detector stops at the
    size CHECKs for every frame of another size. *)
Theorem Init_default_native_size (env : Env) (o : LaneDetectorInitOptions)
  (w w1 : World) (r : bool + Exit) :
  base_camera_model o = None ->
  run (Init env o) w = (r, w1) -> outcome r = Returned true ->
  input_height_ (w_det w1) = 1080 /\ input_width_ (w_det w1) = 1920 /\
  forall opts f lg cs,
    (src_width (data_provider f), src_height (data_provider f))
      <> (1920, 1080) ->
    outcome (fst (run (Detect opts) (mkWorld (w_det w1) (Some f) lg cs)))
      = Aborted.
Proof.
  intros Hcam Hrun Hok.
  assert (Hdims : input_height_ (w_det w1) = 1080 /\
                  input_width_ (w_det w1) = 1920).
  { destruct_world w. destruct o. cbn in Hcam. subst.
    run_cases Hrun. all: split; reflexivity. }
  destruct Hdims as [Hh Hw]. split; [exact Hh | split; [exact Hw |]].
  intros opts f lg cs Hne.
  destruct (Detect_size_mismatch opts (w_det w1) f lg cs) as [H1 _].
  - rewrite Hh, Hw. exact Hne.
  - rewrite H1. reflexivity.
Qed.





(** C8 (as amended): when the configuration loads and no camera model is
    given, [Init] logs an ERROR-level message, records 1920 x 1080, and
    goes on exactly as with a supplied 1920 x 1080 camera: same outcome,
    same external calls, same detector apart from the recorded camera
    pointer. *)
Theorem Init_without_camera (env : Env) (rd cf : string) (gpu : Z)
  (p : DenselineParam) (w w1 w1' : World) (r r' : bool + Exit) :
  GetProtoFromFile env (GetAbsolutePath env rd cf) = Some p ->
  run (Init env (mkInitOptions rd cf None gpu)) w = (r, w1) ->
  run (Init env (mkInitOptions rd cf (Some camera_1920x1080) gpu)) w
    = (r', w1') ->
  In (ERROR, "options.intrinsic is nullptr!"%string) (w_log w1) /\
  input_height_ (w_det w1) = 1080 /\ input_width_ (w_det w1) = 1920 /\
  outcome r = outcome r' /\ w_calls w1 = w_calls w1' /\
  w_det w1 = set_camera None 1080 1920 (w_det w1').
Proof.
  intros Hp H1 H2. destruct_world w.
  run_cases H1; run_cases H2.
  all: unfold camera_1920x1080 in *; cbn in *; zify_eqs; try lia.
  all: split; [rewrite ?in_app_iff; cbn; tauto
              | repeat split; reflexivity].
Qed.

(* ------------------------------------------------------------------ *)
(** ** Concrete runs, witnesses and counterexamples *)

Example init_e2e_ok :
  outcome (fst (run (Init (env_with param_e2e true)
                          (init_options (Some camera_1920x1080)))
                    (world_of fresh_detector None))) = Returned true.
Proof. vm_compute. reflexivity. Qed.

Example e2e_reshape :
  last (w_calls (snd (init_run e2e_env (Some camera_1920x1080)))) CallInfer
    = CallNetInit [("data"%string, [1; 3; 240; 960])].
Proof. vm_compute. reflexivity. Qed.

Example e2e_detect_ok :
  outcome (fst (run (Detect no_options)
                    (mkWorld e2e_detector (Some (frame_of 1920 1080)) [] [])))
    = Returned true.
Proof. vm_compute. reflexivity. Qed.

(** Witness of C4: a 1280 x 720 frame aborts, a 1920 x 1080 frame runs
    inference, on the end-to-end detector. *)
Lemma Detect_frame_size_witness :
  outcome (fst (run (Detect no_options)
                    (mkWorld e2e_detector (Some (frame_of 1280 720)) [] [])))
    = Aborted /\
  outcome (fst (run (Detect no_options)
                    (mkWorld e2e_detector (Some (frame_of 1920 1080)) [] [])))
    = Returned true.
Proof.
  split.
  - refine (proj1 (proj1 (Detect_frame_size no_options e2e_detector
                            (frame_of 1280 720) [] []) _)).
    vm_compute. discriminate.
  - refine (proj1 (proj2 (proj2 (Detect_frame_size no_options e2e_detector
                  (frame_of 1920 1080) [] []))
                  e2e_net "data"%string [] (mkBlob "data" 3 240 960)
                  "conv_out"%string ["softmax"%string] _ _ _ _ _ _ _ _));
      vm_compute; reflexivity.
Defined.

(** Witness of C5: an engine re-bound to a 256-row input aborts [Detect]. *)
Lemma Detect_shape_drift_witness :
  outcome (fst (run (Detect no_options)
                    (mkWorld drifted_detector (Some (frame_of 1920 1080)) [] [])))
    = Aborted /\
  w_det (snd (run (Detect no_options)
                  (mkWorld drifted_detector (Some (frame_of 1920 1080)) [] [])))
    = drifted_detector.
Proof.
  destruct (Detect_shape_drift no_options drifted_detector (frame_of 1920 1080)
              [] [] drifted_net "data"%string [] (mkBlob "data" 3 256 960))
    as [H1 [_ [_ H4]]];
    [vm_compute; reflexivity .. | vm_compute; discriminate |].
  split; [exact H1 | exact H4].
Defined.

(** Counterexample to C4: a frame-size mismatch is a failed CHECK, which
    terminates the process, not a returned failure. *)
Lemma Detect_mismatch_is_check_failure :
  fst (run (Detect no_options)
           (mkWorld e2e_detector (Some (frame_of 1280 720)) [] []))
    = inr (ExitCheckFailed "Input size is not correct") /\
  outcome (fst (run (Detect no_options)
                    (mkWorld e2e_detector (Some (frame_of 1280 720)) [] [])))
    <> Returned false.
Proof. split; vm_compute; [reflexivity | discriminate]. Qed.

(** Counterexample to C5: a height/width drift is a failed CHECK that
    terminates the process (there is no Failed state to enter), and a drift
    of the channel count alone is not detected at all. *)
Lemma Detect_drift_is_check_failure :
  fst (run (Detect no_options)
           (mkWorld drifted_detector (Some (frame_of 1920 1080)) [] []))
    = inr (ExitCheckFailed "height is not equal") /\
  outcome (fst (run (Detect no_options)
                    (mkWorld channel_drifted_detector
                             (Some (frame_of 1920 1080)) [] [])))
    = Returned true.
Proof. split; vm_compute; reflexivity. Qed.

(** Witness of C10. *)
Lemma Init_default_native_size_witness :
  input_height_ (w_det (snd (init_run e2e_env None))) = 1080 /\
  input_width_ (w_det (snd (init_run e2e_env None))) = 1920 /\
  outcome (fst (run (Detect no_options)
                    (mkWorld (w_det (snd (init_run e2e_env None)))
                             (Some (frame_of 1280 720)) [] []))) = Aborted.
Proof.
  destruct (Init_default_native_size e2e_env (init_options None)
              (world_of fresh_detector None) (snd (init_run e2e_env None))
              (fst (init_run e2e_env None)) eq_refl
              (surjective_pairing (init_run e2e_env None))
              ltac:(vm_compute; reflexivity)) as [H1 [H2 H3]].
  split; [exact H1 | split; [exact H2 |]].
  refine (H3 no_options (frame_of 1280 720) [] [] _).
  vm_compute. discriminate.
Defined.








(** Witness of C8 (as amended). *)
Lemma Init_without_camera_witness :
  In (ERROR, "options.intrinsic is nullptr!"%string)
     (w_log (snd (init_run e2e_env None))) /\
  input_height_ (w_det (snd (init_run e2e_env None))) = 1080 /\
  input_width_ (w_det (snd (init_run e2e_env None))) = 1920 /\
  outcome (fst (init_run e2e_env None))
    = outcome (fst (init_run e2e_env (Some camera_1920x1080))) /\
  w_calls (snd (init_run e2e_env None))
    = w_calls (snd (init_run e2e_env (Some camera_1920x1080))) /\
  w_det (snd (init_run e2e_env None))
    = set_camera None 1080 1920
        (w_det (snd (init_run e2e_env (Some camera_1920x1080)))).
Proof.
  exact (Init_without_camera e2e_env
           (root_dir (init_options None)) (conf_file (init_options None)) 0
           param_e2e (world_of fresh_detector None)
           (snd (init_run e2e_env None))
           (snd (init_run e2e_env (Some camera_1920x1080)))
           (fst (init_run e2e_env None))
           (fst (init_run e2e_env (Some camera_1920x1080)))
           eq_refl
           (surjective_pairing (init_run e2e_env None))
           (surjective_pairing (init_run e2e_env (Some camera_1920x1080)))).
Defined.

(** Counterexample to C8: without a camera, [Init] succeeds and logs no
    WARNING-level entry (the signal is at ERROR level). *)
Lemma Init_without_camera_no_warning :
  outcome (fst (init_run e2e_env None)) = Returned true /\
  ~ In WARNING (map fst (w_log (snd (init_run e2e_env None)))).
Proof.
  split; [vm_compute; reflexivity |].
  vm_compute. intuition discriminate.
Qed.

(** C9 (code bug): [Init] is not idempotent.  [net_inputs_] and
    [net_outputs_] are appended to and never cleared, so a second [Init]
    with the same configuration doubles the name lists passed to the
    inference factory, although the resize geometry is unchanged.  With
    a factory that rejects repeated blob names the second [Init] aborts
    at [CHECK(rt_net_ != nullptr)], while the first succeeds. *)
Theorem Init_twice_accumulates_names :
  outcome (fst (init_run e2e_env (Some camera_1920x1080))) = Returned true /\
  outcome (fst (init_twice e2e_env)) = Returned true /\
  resize_height_ (w_det (snd (init_twice e2e_env))) = resize_height_ e2e_detector /\
  resize_width_ (w_det (snd (init_twice e2e_env))) = resize_width_ e2e_detector /\
  net_inputs_ e2e_detector = ["data"%string] /\
  net_outputs_ e2e_detector = ["conv_out"%string; "softmax"%string] /\
  net_inputs_ (w_det (snd (init_twice e2e_env))) = ["data"%string; "data"%string] /\
  net_outputs_ (w_det (snd (init_twice e2e_env)))
    = ["conv_out"%string; "softmax"%string; "conv_out"%string; "softmax"%string] /\
  outcome (fst (init_run (env_with param_e2e false) (Some camera_1920x1080)))
    = Returned true /\
  outcome (fst (init_twice (env_with param_e2e false))) = Aborted.
Proof. repeat split; vm_compute; reflexivity. Qed.

(* ------------------------------------------------------------------ *)
(** ** Further properties of [Init] and [Detect] *)



(** A successful [Init] records the loaded configuration, the camera
    pointer it was given, the native size (the camera's, or 1080 x 1920
    without one), the scale, offsets and crop sizes; the native size is
    positive and the crop sizes do not exceed it. *)
Theorem Init_success_geometry (env : Env) (o : LaneDetectorInitOptions)
  (w w1 : World) (r : bool + Exit) :
  run (Init env o) w = (r, w1) -> outcome r = Returned true ->
  exists p,
    GetProtoFromFile env (GetAbsolutePath env (root_dir o) (conf_file o))
      = Some p /\
    denseline_param_ (w_det w1) = Some p /\
    base_camera_model_ (w_det w1) = base_camera_model o /\
    input_height_ (w_det w1) = native_height o /\
    input_width_ (w_det w1) = native_width o /\
    0 < native_height o /\ 0 < native_width o /\
    image_scale_ (w_det w1) = resize_scale (model_param p) /\
    input_offset_y_ (w_det w1) = input_offset_y (model_param p) /\
    input_offset_x_ (w_det w1) = input_offset_x (model_param p) /\
    crop_height_ (w_det w1) = crop_height (model_param p) /\
    crop_width_ (w_det w1) = crop_width (model_param p) /\
    crop_height (model_param p) <= native_height o /\
    crop_width (model_param p) <= native_width o.
Proof.
  intros Hrun Hok. destruct_world w. destruct o as [rd cf cam gpu].
  unfold native_height, native_width. cbn.
  destruct cam as [c|]; run_cases Hrun; zify_eqs.
  all: eexists; repeat split; first [eassumption | reflexivity | lia].
Qed.

(** A successful [Init] sets the image options used by [Detect]: target
    colour BGR or RGB as configured, cropping on, the crop rectangle
    (offset_x, offset_y, crop_height, crop_width); and the means in the
    matching channel order, (b, g, r) for BGR and (r, g, b) for RGB. *)
Theorem Init_success_image_options (env : Env) (o : LaneDetectorInitOptions)
  (w w1 : World) (r : bool + Exit) :
  run (Init env o) w = (r, w1) -> outcome r = Returned true ->
  exists p,
    GetProtoFromFile env (GetAbsolutePath env (root_dir o) (conf_file o))
      = Some p /\
    let mp := model_param p in
    data_provider_image_option_ (w_det w1) =
      mkImageOptions (if is_bgr mp then BGR else RGB) true
        (mkRect (input_offset_x mp) (input_offset_y mp)
                (crop_height mp) (crop_width mp)) /\
    image_mean_ (w_det w1) =
      (if is_bgr mp then (mean_b mp, mean_g mp, mean_r mp)
       else (mean_r mp, mean_g mp, mean_b mp)).
Proof.
  intros Hrun Hok. destruct_world w. destruct o.
  run_cases Hrun.
  all: eexists; split; [eassumption|]; cbn zeta.
  all: match goal with E : is_bgr _ = _ |- _ => rewrite E end.
  all: split; reflexivity.
Qed.


(** With the configuration loaded, a non-positive native size or a crop
    larger than the native size stops [Init] at a CHECK before any device
    or engine call, with the engine and the name lists as they were. *)
Theorem Init_aborts_before_device (env : Env) (o : LaneDetectorInitOptions)
  (p : DenselineParam) (w w1 : World) (r : bool + Exit) :
  GetProtoFromFile env (GetAbsolutePath env (root_dir o) (conf_file o))
    = Some p ->
  native_height o <= 0 \/ native_width o <= 0 \/
  native_height o < crop_height (model_param p) \/
  native_width o < crop_width (model_param p) ->
  run (Init env o) w = (r, w1) ->
  outcome r = Aborted /\ w_calls w1 = w_calls w /\
  rt_net_ (w_det w1) = rt_net_ (w_det w) /\
  net_inputs_ (w_det w1) = net_inputs_ (w_det w) /\
  net_outputs_ (w_det w1) = net_outputs_ (w_det w).
Proof.
  intros Hp Hx Hrun. destruct_world w. destruct o as [rd cf cam gpu].
  unfold native_height, native_width in Hx. cbn in Hp, Hx.
  destruct cam as [c|]; run_cases Hrun; zify_eqs;
    first [lia | repeat split; reflexivity].
Qed.

(** When the inference factory returns no engine, [Init] aborts at
    [CHECK(rt_net_ != nullptr)] after the device query and the factory
    call, and the detector holds no engine. *)
Theorem Init_factory_null (env : Env) (o : LaneDetectorInitOptions)
  (p : DenselineParam) (w w1 : World) (r : bool + Exit) :
  GetProtoFromFile env (GetAbsolutePath env (root_dir o) (conf_file o))
    = Some p ->
  0 < native_height o -> 0 < native_width o ->
  crop_height (model_param p) <= native_height o ->
  crop_width (model_param p) <= native_width o ->
  create_net env o p (w_det w) = None ->
  run (Init env o) w = (r, w1) ->
  outcome r = Aborted /\
  w_calls w1 = w_calls w ++ [CallGetDeviceProperties (gpu_id o);
                             factory_call env o p (w_det w)] /\
  rt_net_ (w_det w1) = None.
Proof.
  intros Hp Hh Hw Hch Hcw Hc Hrun.
  destruct w as [[? ? ? ? ? ? ? ? ? ? ? ? ? ? ins ?] ? ? ?].
  destruct o as [rd cf cam gpu].
  unfold native_height, native_width in *. unfold create_net, model_root_of in Hc.
  unfold factory_call, model_root_of. cbn in *.
  destruct ins; cbn [app] in Hc;
  destruct cam as [c|]; run_cases Hrun; zify_eqs;
    first [lia | split; [reflexivity | split; [rewrite <- ?app_assoc; reflexivity | reflexivity]]].
Qed.




(** Whatever its outcome, [Detect] never modifies the detector's configuration: engine, camera, parameters, sizes, crop, means, image options and blob names. The image buffer [image_src_], which [GetImage] fills, is not part of the model. *)
Theorem Detect_keeps_detector (opts : LaneDetectorOptions) (w : World) :
  w_det (snd (run (Detect opts) w)) = w_det w.
Proof.
  destruct (run (Detect opts) w) as [r w1] eqn:H. cbn [snd].
  destruct_world w. run_cases H; reflexivity.
Qed.

(** A successful [Detect] had a frame of the native size, a successful
    [GetImage], and an input blob of the resize size; its external calls
    are, in order, [GetImage] with the image options, [ResizeGPU] into
    that blob with the crop width and the means, the device
    synchronisation and the inference. *)
Theorem Detect_success_calls (opts : LaneDetectorOptions) (w w1 : World)
  (r : bool + Exit) :
  run (Detect opts) w = (r, w1) -> outcome r = Returned true ->
  exists f net in0 rest b,
    w_frame w = Some f /\
    src_width (data_provider f) = input_width_ (w_det w) /\
    src_height (data_provider f) = input_height_ (w_det w) /\
    GetImage (data_provider f) (data_provider_image_option_ (w_det w)) = true /\
    net_inputs_ (w_det w) = in0 :: rest /\
    rt_net_ (w_det w) = Some net /\ get_blob net in0 = Some b /\
    blob_height b = resize_height_ (w_det w) /\
    blob_width b = resize_width_ (w_det w) /\
    w_calls w1 = w_calls w ++
      [CallGetImage (data_provider_image_option_ (w_det w));
       CallResizeGPU b (crop_width_ (w_det w)) (image_mean_ (w_det w));
       CallDeviceSynchronize; CallInfer].
Proof.
  intros Hrun Hok. destruct_world w.
  run_cases Hrun; zify_eqs.
  all: cbn; eexists _, _, _, _, _; repeat split;
         first [eassumption | reflexivity | lia
               | rewrite <- ?app_assoc; reflexivity].
Qed.

(** When [GetImage] fails on a frame of the native size, [Detect] aborts
    at the CHECK, after the one [GetImage] call. *)
Theorem Detect_GetImage_fails (opts : LaneDetectorOptions) (d : Detector)
  (f : CameraFrame) (lg : list (Level * string)) (cs : list Call) :
  (src_width (data_provider f), src_height (data_provider f))
    = (input_width_ d, input_height_ d) ->
  GetImage (data_provider f) (data_provider_image_option_ d) = false ->
  run (Detect opts) (mkWorld d (Some f) lg cs) =
    (inr (ExitCheckFailed "GetImage"),
     mkWorld d (Some f) (lg ++ [(FATAL, "GetImage"%string)])
             (cs ++ [CallGetImage (data_provider_image_option_ d)])).
Proof.
  intros Hs Hg. injection Hs as Hw Hh.
  unfold run, Detect. cbn. rewrite Hw, Hh, !Z.eqb_refl. cbn. rewrite Hg.
  reflexivity.
Qed.

(** With a frame of the native size and a successful [GetImage], a
    detector without an input name, without an engine, or whose engine
    binds no blob to the first input name makes [Detect] dereference
    an invalid pointer (undefined behaviour), after the [GetImage] call. *)
Theorem Detect_engine_unbound (opts : LaneDetectorOptions) (d : Detector)
  (f : CameraFrame) (lg : list (Level * string)) (cs : list Call) :
  (src_width (data_provider f), src_height (data_provider f))
    = (input_width_ d, input_height_ d) ->
  GetImage (data_provider f) (data_provider_image_option_ d) = true ->
  net_inputs_ d = [] \/ rt_net_ d = None \/
  (exists net in0 rest, net_inputs_ d = in0 :: rest /\
     rt_net_ d = Some net /\ get_blob net in0 = None) ->
  outcome (fst (run (Detect opts) (mkWorld d (Some f) lg cs))) = Undefined /\
  w_calls (snd (run (Detect opts) (mkWorld d (Some f) lg cs)))
    = cs ++ [CallGetImage (data_provider_image_option_ d)].
Proof.
  intros Hs Hg Hx. injection Hs as Hw Hh.
  destruct (run (Detect opts) (mkWorld d (Some f) lg cs)) as [r w1] eqn:H.
  cbn [fst snd]. destruct d. cbn in *.
  destruct Hx as [Hi | [Hn | (net & in0 & rest & Hi & Hn & Hb)]]; subst;
    run_cases H; zify_eqs; try congruence; split; reflexivity.
Qed.




(* ------------------------------------------------------------------ *)
(** ** Witnesses of the further properties *)


Lemma Init_success_geometry_witness :
  exists p,
    GetProtoFromFile e2e_env
      (GetAbsolutePath e2e_env (root_dir (init_options (Some camera_1920x1080)))
                       (conf_file (init_options (Some camera_1920x1080))))
      = Some p /\
    denseline_param_ e2e_detector = Some p /\
    base_camera_model_ e2e_detector
      = base_camera_model (init_options (Some camera_1920x1080)) /\
    input_height_ e2e_detector = native_height (init_options (Some camera_1920x1080)) /\
    input_width_ e2e_detector = native_width (init_options (Some camera_1920x1080)) /\
    0 < native_height (init_options (Some camera_1920x1080)) /\
    0 < native_width (init_options (Some camera_1920x1080)) /\
    image_scale_ e2e_detector = resize_scale (model_param p) /\
    input_offset_y_ e2e_detector = input_offset_y (model_param p) /\
    input_offset_x_ e2e_detector = input_offset_x (model_param p) /\
    crop_height_ e2e_detector = crop_height (model_param p) /\
    crop_width_ e2e_detector = crop_width (model_param p) /\
    crop_height (model_param p) <= native_height (init_options (Some camera_1920x1080)) /\
    crop_width (model_param p) <= native_width (init_options (Some camera_1920x1080)).
Proof.
  exact (Init_success_geometry e2e_env (init_options (Some camera_1920x1080))
           (world_of fresh_detector None)
           (snd (init_run e2e_env (Some camera_1920x1080)))
           (fst (init_run e2e_env (Some camera_1920x1080)))
           (surjective_pairing (init_run e2e_env (Some camera_1920x1080)))
           ltac:(concrete)).
Defined.

Lemma Init_success_image_options_witness :
  exists p,
    GetProtoFromFile e2e_env
      (GetAbsolutePath e2e_env (root_dir cam_options) (conf_file cam_options))
      = Some p /\
    let mp := model_param p in
    data_provider_image_option_ e2e_detector =
      mkImageOptions (if is_bgr mp then BGR else RGB) true
        (mkRect (input_offset_x mp) (input_offset_y mp)
                (crop_height mp) (crop_width mp)) /\
    image_mean_ e2e_detector =
      (if is_bgr mp then (mean_b mp, mean_g mp, mean_r mp)
       else (mean_r mp, mean_g mp, mean_b mp)).
Proof.
  exact (Init_success_image_options e2e_env cam_options world0
           (snd (init_run e2e_env (Some camera_1920x1080)))
           (fst (init_run e2e_env (Some camera_1920x1080)))
           (surjective_pairing (init_run e2e_env (Some camera_1920x1080)))
           ltac:(concrete)).
Defined.


Lemma Init_aborts_before_device_witness :
  outcome (fst (init_run (env_with p_wide true) (Some camera_1920x1080)))
    = Aborted /\
  w_calls (snd (init_run (env_with p_wide true) (Some camera_1920x1080)))
    = w_calls world0 /\
  rt_net_ (w_det (snd (init_run (env_with p_wide true) (Some camera_1920x1080))))
    = rt_net_ (w_det world0) /\
  net_inputs_ (w_det (snd (init_run (env_with p_wide true) (Some camera_1920x1080))))
    = net_inputs_ (w_det world0) /\
  net_outputs_ (w_det (snd (init_run (env_with p_wide true) (Some camera_1920x1080))))
    = net_outputs_ (w_det world0).
Proof.
  exact (Init_aborts_before_device (env_with p_wide true) cam_options p_wide world0
           (snd (init_run (env_with p_wide true) (Some camera_1920x1080)))
           (fst (init_run (env_with p_wide true) (Some camera_1920x1080)))
           eq_refl
           ltac:(right; right; right; concrete)
           (surjective_pairing
              (init_run (env_with p_wide true) (Some camera_1920x1080)))).
Defined.

Lemma Init_factory_null_witness :
  outcome (fst (init_run (env_factory param_e2e None) (Some camera_1920x1080)))
    = Aborted /\
  w_calls (snd (init_run (env_factory param_e2e None) (Some camera_1920x1080)))
    = w_calls world0 ++
      [CallGetDeviceProperties (gpu_id cam_options);
       factory_call (env_factory param_e2e None) cam_options param_e2e (w_det world0)] /\
  rt_net_ (w_det (snd (init_run (env_factory param_e2e None)
                                (Some camera_1920x1080)))) = None.
Proof.
  exact (Init_factory_null (env_factory param_e2e None) cam_options param_e2e world0
           (snd (init_run (env_factory param_e2e None) (Some camera_1920x1080)))
           (fst (init_run (env_factory param_e2e None) (Some camera_1920x1080)))
           eq_refl ltac:(concrete) ltac:(concrete) ltac:(concrete)
           ltac:(concrete) ltac:(concrete)
           (surjective_pairing
              (init_run (env_factory param_e2e None) (Some camera_1920x1080)))).
Defined.




Lemma Detect_success_calls_witness :
  exists f net in0 rest b,
    w_frame w_e2e_frame = Some f /\
    src_width (data_provider f) = input_width_ (w_det w_e2e_frame) /\
    src_height (data_provider f) = input_height_ (w_det w_e2e_frame) /\
    GetImage (data_provider f) (data_provider_image_option_ (w_det w_e2e_frame))
      = true /\
    net_inputs_ (w_det w_e2e_frame) = in0 :: rest /\
    rt_net_ (w_det w_e2e_frame) = Some net /\ get_blob net in0 = Some b /\
    blob_height b = resize_height_ (w_det w_e2e_frame) /\
    blob_width b = resize_width_ (w_det w_e2e_frame) /\
    w_calls (snd (run (Detect no_options) w_e2e_frame))
      = w_calls w_e2e_frame ++
      [CallGetImage (data_provider_image_option_ (w_det w_e2e_frame));
       CallResizeGPU b (crop_width_ (w_det w_e2e_frame))
                     (image_mean_ (w_det w_e2e_frame));
       CallDeviceSynchronize; CallInfer].
Proof.
  exact (Detect_success_calls no_options w_e2e_frame
           (snd (run (Detect no_options) w_e2e_frame))
           (fst (run (Detect no_options) w_e2e_frame))
           (surjective_pairing (run (Detect no_options) w_e2e_frame))
           ltac:(concrete)).
Defined.

Lemma Detect_GetImage_fails_witness :
  run (Detect no_options) (mkWorld e2e_detector (Some frame_no_image) [] []) =
    (inr (ExitCheckFailed "GetImage"),
     mkWorld e2e_detector (Some frame_no_image) ([] ++ [(FATAL, "GetImage"%string)])
             ([] ++ [CallGetImage (data_provider_image_option_ e2e_detector)])).
Proof.
  exact (Detect_GetImage_fails no_options e2e_detector frame_no_image [] []
           ltac:(concrete) ltac:(concrete)).
Defined.

Lemma Detect_engine_unbound_witness :
  outcome (fst (run (Detect no_options)
                    (mkWorld (set_rt_net None e2e_detector)
                             (Some (frame_of 1920 1080)) [] []))) = Undefined /\
  w_calls (snd (run (Detect no_options)
                    (mkWorld (set_rt_net None e2e_detector)
                             (Some (frame_of 1920 1080)) [] [])))
    = [] ++ [CallGetImage (data_provider_image_option_
                             (set_rt_net None e2e_detector))].
Proof.
  exact (Detect_engine_unbound no_options (set_rt_net None e2e_detector)
           (frame_of 1920 1080) [] [] ltac:(concrete) ltac:(concrete)
           ltac:(right; left; concrete)).
Defined.

